(** * Degraded-mode execution contract of the lead generator

    A shallow embedding of [src/lead_generator/crew.py]: the availability
    probe run when the module is loaded, the [LeadOutput] schema, the two
    [LeadGenerator] classes (the CrewAI-backed one and the limited one) and
    the two module-level queries.
    The dashboard script [streamlit_app.py] is embedded as far as it uses
    the module: the status notices, and what it shows when the form is
    submitted.

    Python text is modelled as [string] (the UTF-8 bytes of the literal),
    Python [int] as [Z], a [dict] as a [gmap], a raised exception as the
    [Raises] branch of [outcome]. *)

From Stdlib Require Import ZArith DecimalString.
From stdpp Require Import base strings gmap list.

Local Open Scope string_scope.

(** ** Python values and exceptions *)

Module Py.

(** The values the dashboard puts in the [inputs] dict: text, integers
    (the lead count) and [None]. *)
Inductive value :=
| PyStr (s : string)
| PyInt (z : Z)
| PyNone.

(** [str(int)]: decimal digits, with a leading minus sign when negative. *)
Definition str_int (z : Z) : string := NilZero.string_of_int (Z.to_int z).

(** What an f-string replacement field [{v}] renders: [format(v, '')]. *)
Definition format (v : value) : string :=
  match v with
  | PyStr s => s
  | PyInt z => str_int z
  | PyNone => "None"
  end.

(** [d.get(key, default)]. *)
Definition get (d : gmap string value) (key : string) (default : value) : value :=
  match d !! key with
  | Some v => v
  | None => default
  end.

(** [hay.startswith(needle)]. *)
Fixpoint startswith (needle hay : string) : bool :=
  match needle, hay with
  | EmptyString, _ => true
  | String _ _, EmptyString => false
  | String a needle', String b hay' => Ascii.eqb a b && startswith needle' hay'
  end.

(** [needle in hay] on text. *)
Fixpoint contains (needle hay : string) : bool :=
  startswith needle hay ||
  match hay with
  | EmptyString => false
  | String _ rest => contains needle rest
  end.

(** The class of an exception, as far as the [except] clauses of the
    module tell classes apart: [except ImportError] takes [ImportError]
    and its subclass [ModuleNotFoundError], [except Exception] takes all
    of them. *)
Inductive exc_class :=
| ImportError
| ModuleNotFoundError
| OtherException (name : string).

(** An instance of a class deriving from [Exception] raised by code
    outside the repository; [err_text] is [str(e)]. The interpreter's
    exit signals, which derive from [BaseException] only, are not values
    of this type. *)
Record EnvError := {
  err_class : exc_class;
  err_text : string;
}.

Definition str_exc (e : EnvError) : string := err_text e.

Definition isinstance_ImportError (e : EnvError) : bool :=
  match err_class e with
  | ImportError | ModuleNotFoundError => true
  | OtherException _ => false
  end.

(** Everything the modelled code can raise: an error of the environment,
    or pydantic's [ValidationError] for a model, with the names of the
    fields reported as required but not supplied. *)
Inductive exception :=
| External (e : EnvError)
| ValidationError (model : string) (missing : list string).

(** A call either returns a value or raises. *)
Inductive outcome (A : Type) :=
| Returns (a : A)
| Raises (e : exception).
Arguments Returns {A} a.
Arguments Raises {A} e.

Definition bind {A B} (m : outcome A) (k : A → outcome B) : outcome B :=
  match m with
  | Returns a => k a
  | Raises e => Raises e
  end.

(** [try: body / except Exception as e: handler(e)]. *)
Definition try_except {A} (body : outcome A) (handler : exception → outcome A)
  : outcome A :=
  match body with
  | Returns a => Returns a
  | Raises e => handler e
  end.

Definition returned {A} (m : outcome A) : bool :=
  match m with
  | Returns _ => true
  | Raises _ => false
  end.

End Py.

Import Py.

#[export] Instance outcome_ret : MRet outcome := @Returns.
#[export] Instance outcome_bind : MBind outcome := λ A B k m, Py.bind m k.
#[export] Instance outcome_fmap : FMap outcome :=
  λ A B f m, Py.bind m (λ a, Returns (f a)).

(** ** The schema library *)

(** [LeadOutput] derives from pydantic's [BaseModel], and what its
    constructor does with a keyword that is not passed is the library's
    rule, not the module's. Every field is declared as
    [name: Optional[T] = Field(description=...)], so without a default.
    pydantic 1.x gives such a field the default [None]; pydantic 2.x
    treats it as required (it may be [None], but must be passed) and the
    constructor raises [ValidationError] listing the fields that are
    missing. CrewAI itself is built on pydantic 2.x. *)
Inductive pydantic_major := PydanticV1 | PydanticV2.

(** A keyword argument of a constructor call: not passed, or passed with a
    value that may be [None]. *)
Inductive kwarg (T : Type) :=
| Omitted
| Given (v : option T).
Arguments Omitted {T}.
Arguments Given {T} v.

(** The value a field takes, and the field's name when the library
    reports it as missing. *)
Definition resolve {T} (pyd : pydantic_major) (name : string) (a : kwarg T)
  : option T * list string :=
  match a with
  | Given v => (v, [])
  | Omitted =>
      match pyd with
      | PydanticV1 => (None, [])
      | PydanticV2 => (None, [name])
      end
  end.

(** ** LeadOutput *)

Record LeadOutput := {
  company_name : option string;
  annual_revenue : option string;
  location : option (gmap string string);
  website_url : option string;
  review : option string;
  num_employees : option Z;
  key_decision_makers : option (list (gmap string string));
  score : option Z;
}.

(** The keywords of a call [LeadOutput(...)]. *)
Record LeadOutput_kwargs := {
  kw_company_name : kwarg string;
  kw_annual_revenue : kwarg string;
  kw_location : kwarg (gmap string string);
  kw_website_url : kwarg string;
  kw_review : kwarg string;
  kw_num_employees : kwarg Z;
  kw_key_decision_makers : kwarg (list (gmap string string));
  kw_score : kwarg Z;
}.

(** The call [LeadOutput()], with no keyword at all. *)
Definition no_kwargs : LeadOutput_kwargs :=
  {| kw_company_name := Omitted; kw_annual_revenue := Omitted;
     kw_location := Omitted; kw_website_url := Omitted;
     kw_review := Omitted; kw_num_employees := Omitted;
     kw_key_decision_makers := Omitted; kw_score := Omitted |}.

(** The call [LeadOutput] with keywords [kw]: fields are resolved in
    declaration order. The values the module passes already have the
    declared types, so type validation has nothing to reject. *)
Definition LeadOutput_new (pyd : pydantic_major) (kw : LeadOutput_kwargs)
  : outcome LeadOutput :=
  let '(cn, m1) := resolve pyd "company_name" (kw_company_name kw) in
  let '(ar, m2) := resolve pyd "annual_revenue" (kw_annual_revenue kw) in
  let '(lo, m3) := resolve pyd "location" (kw_location kw) in
  let '(wu, m4) := resolve pyd "website_url" (kw_website_url kw) in
  let '(rv, m5) := resolve pyd "review" (kw_review kw) in
  let '(ne, m6) := resolve pyd "num_employees" (kw_num_employees kw) in
  let '(kd, m7) := resolve pyd "key_decision_makers" (kw_key_decision_makers kw) in
  let '(sc, m8) := resolve pyd "score" (kw_score kw) in
  match (m1 ++ m2 ++ m3 ++ m4 ++ m5 ++ m6 ++ m7 ++ m8)%list with
  | [] =>
      Returns {| company_name := cn; annual_revenue := ar; location := lo;
                 website_url := wu; review := rv; num_employees := ne;
                 key_decision_makers := kd; score := sc |}
  | missing => Raises (ValidationError "LeadOutput" missing)
  end.

(** The call that passes [None] for every field. *)
Definition all_None_kwargs : LeadOutput_kwargs :=
  {| kw_company_name := Given None; kw_annual_revenue := Given None;
     kw_location := Given None; kw_website_url := Given None;
     kw_review := Given None; kw_num_employees := Given None;
     kw_key_decision_makers := Given None; kw_score := Given None |}.

(** The result with every field absent. *)
Definition absent_LeadOutput : LeadOutput :=
  {| company_name := None; annual_revenue := None; location := None;
     website_url := None; review := None; num_employees := None;
     key_decision_makers := None; score := None |}.

(** ** Process-wide state and the availability probe *)

(** The three module globals. *)
Record ModuleState := {
  IS_STREAMLIT : bool;
  CREWAI_AVAILABLE : bool;
  IMPORT_ERROR : option string;
}.

(** What an [import] statement does when it is executed. *)
Inductive import_outcome :=
| Imported
| ImportRaises (e : EnvError).

(** What the module finds around it when it is loaded. The three
    [import_crewai*] fields are the three statements of the [try] block,
    [import_streamlit] is what loading [streamlit] does when it is not
    loaded yet. [stdout_rejects] is [None] when [sys.stdout] can encode
    the messages the module prints, which all start with an emoji;
    otherwise it gives, for a message, the text of the
    [UnicodeEncodeError] that printing it raises. *)
Record Environment := {
  streamlit_in_sys_modules : bool;
  streamlit_in_argv : bool;
  import_crewai : import_outcome;
  import_crewai_project : import_outcome;
  import_crewai_tools : import_outcome;
  import_streamlit : import_outcome;
  stdout_rejects : option (string → string);
  pydantic : pydantic_major;
}.

Definition UnicodeEncodeError (text : string) : EnvError :=
  {| err_class := OtherException "UnicodeEncodeError"; err_text := text |}.

(** [print(message)]: the exception it raises, if any. *)
Definition console_print (env : Environment) (message : string)
  : option EnvError :=
  match stdout_rejects env with
  | None => None
  | Some text_of => Some (UnicodeEncodeError (text_of message))
  end.

(** Two [import] statements in sequence: the second is reached only when
    the first did not raise. *)
Definition then_import (first second : import_outcome) : import_outcome :=
  match first with
  | Imported => second
  | ImportRaises e => ImportRaises e
  end.

(** The body of the [try] block: the three imports in order. *)
Definition acquire (env : Environment) : import_outcome :=
  then_import (import_crewai env)
    (then_import (import_crewai_project env) (import_crewai_tools env)).

(** [import streamlit as st] inside [try ... except ImportError: pass]:
    a module already in [sys.modules] is only looked up. *)
Definition import_streamlit_guarded (env : Environment) : outcome unit :=
  if streamlit_in_sys_modules env then Returns tt
  else
    match import_streamlit env with
    | Imported => Returns tt
    | ImportRaises e =>
        if isinstance_ImportError e then Returns tt else Raises (External e)
    end.

(** The handler [except Exception as e] of lines 24 to 33: the
    diagnostic is recorded, the error is printed and, under Streamlit, the
    UI module is loaded. [available] is what [CREWAI_AVAILABLE] holds when
    the handler is entered. *)
Definition probe_handler (env : Environment) (is_streamlit available : bool)
    (e : EnvError) : outcome ModuleState :=
  let st := {| IS_STREAMLIT := is_streamlit;
               CREWAI_AVAILABLE := available;
               IMPORT_ERROR := Some (str_exc e) |} in
  match console_print env ("❌ Erro ao importar CrewAI: " ++ str_exc e) with
  | Some e' => Raises (External e')
  | None =>
      if is_streamlit
      then _ ← import_streamlit_guarded env; Returns st
      else Returns st
  end.

(** Lines 12 to 33 of the module: the globals are initialised and the
    imports are tried; when they succeed the flag is set and the success
    is printed, still inside the [try]; whatever the [try] block raises
    goes to the handler. *)
Definition probe (env : Environment) : outcome ModuleState :=
  let is_streamlit := streamlit_in_sys_modules env || streamlit_in_argv env in
  match acquire env with
  | Imported =>
      match console_print env "✅ CrewAI importado com sucesso!" with
      | None =>
          Returns {| IS_STREAMLIT := is_streamlit;
                     CREWAI_AVAILABLE := true;
                     IMPORT_ERROR := None |}
      | Some e => probe_handler env is_streamlit true e
      end
  | ImportRaises e => probe_handler env is_streamlit false e
  end.

(** The two queries read the globals and write nothing. *)
Definition is_crewai_available (st : ModuleState) : bool := CREWAI_AVAILABLE st.

Definition get_import_error (st : ModuleState) : option string := IMPORT_ERROR st.

(** ** The engine's objects

    Agents, tasks and the crew are CrewAI objects; the module only builds
    them. They are kept as the records of the keywords the module passes. *)

Inductive Tool := SerperDevTool | ScrapeWebsiteTool.

Definition search_tool : Tool := SerperDevTool.
Definition scrape_tool : Tool := ScrapeWebsiteTool.

(** [tools] is [None] when the keyword is not passed. *)
Record Agent := {
  agent_config : string;
  agent_tools : option (list Tool);
  agent_verbose : bool;
}.

Inductive Schema := LeadOutput_schema.

(** [context] and [output_pydantic] are [None] when the keyword is not
    passed. *)
#[local] Unset Elimination Schemes.
Inductive Task := {
  task_config : string;
  task_context : option (list Task);
  task_output_pydantic : option Schema;
}.
#[local] Set Elimination Schemes.

Inductive Process := sequential | hierarchical.

Record Crew := {
  crew_agents : list Agent;
  crew_tasks : list Task;
  crew_process : Process;
  crew_verbose : bool;
  crew_usage_metrics : gmap string Z;
}.

(** What [Crew.kickoff] returns: the engine's own wrapper around the
    output of the last task. [raw] is the text the task produced;
    [pydantic] is the structured output when the task was given
    [output_pydantic] and the text could be parsed, [None] otherwise. The
    wrapper has no attribute named after a field of [LeadOutput]. *)
Module CrewOutput.
Record t := {
  raw : string;
  pydantic : option LeadOutput;
}.
End CrewOutput.

(** The objects [run] returns: the engine's wrapper, handed on as it is,
    or a [LeadOutput] built by the module. *)
Inductive run_result :=
| FromEngine (out : CrewOutput.t)
| Structured (r : LeadOutput).

(** [hasattr(result, 'company_name')]. *)
Definition hasattr_company_name (result : run_result) : bool :=
  match result with
  | FromEngine _ => false
  | Structured _ => true
  end.

(** The tasks a task names in its [context]. *)
Definition context_of (t : Task) : list Task := default [] (task_context t).

(** ** The CrewAI-backed class (the [if CREWAI_AVAILABLE] branch) *)

(** ** Streamlit calls

    What the code shows to the user is kept as the sequence of calls it
    makes on the [streamlit] module, in the order it makes them. The calls
    themselves are taken to succeed. *)

Module St.

Inductive widget :=
| error (body : string)
| error_f (prefix : string) (e : exception)
| warning (body : string)
| info (body : string)
| success (body : string)
| code (body : value)
| markdown (body : string)
| write (body : string)
| write_object (result : run_result)
| header (body : string)
| subheader (body : string)
| metric (label : string) (v : value)
| link_button (label url : string)
| expander (label : string)
| spinner (text : string)
| columns (n : nat).

End St.

(** Calls made, then the value returned or the exception raised. *)
Definition shown (A : Type) : Type := list St.widget * outcome A.

(** An optional text as a Python value. *)
Definition optional_text (o : option string) : value :=
  match o with
  | Some s => PyStr s
  | None => PyNone
  end.

(** What [__init__] leaves on an instance. *)
Record Instance := {
  fallback_mode : bool;
}.

Module LeadGenerator.

Definition __init__ : Instance := {| fallback_mode := false |}.

Definition lead_generator : Agent :=
  {| agent_config := "lead_generator";
     agent_tools := Some [search_tool; scrape_tool];
     agent_verbose := true |}.

Definition contact_agent : Agent :=
  {| agent_config := "contact_agent";
     agent_tools := Some [search_tool; scrape_tool];
     agent_verbose := true |}.

Definition lead_qualifier : Agent :=
  {| agent_config := "lead_qualifier";
     agent_tools := None;
     agent_verbose := true |}.

Definition sales_manager : Agent :=
  {| agent_config := "sales_manager";
     agent_tools := Some [];
     agent_verbose := true |}.

Definition lead_generation_task : Task :=
  {| task_config := "lead_generation_task";
     task_context := None;
     task_output_pydantic := Some LeadOutput_schema |}.

Definition contact_research_task : Task :=
  {| task_config := "contact_research_task";
     task_context := Some [lead_generation_task];
     task_output_pydantic := None |}.

Definition lead_qualification_task : Task :=
  {| task_config := "lead_qualification_task";
     task_context := Some [lead_generation_task; contact_research_task];
     task_output_pydantic := Some LeadOutput_schema |}.

Definition sales_management_task : Task :=
  {| task_config := "sales_management_task";
     task_context :=
       Some [lead_generation_task; lead_qualification_task;
             contact_research_task];
     task_output_pydantic := Some LeadOutput_schema |}.

(** [self.agents] and [self.tasks]: [CrewBase] collects the methods
    decorated [@agent] and [@task] in the order the class body defines
    them. *)
Definition agents : list Agent :=
  [lead_generator; contact_agent; lead_qualifier; sales_manager].

Definition tasks : list Task :=
  [lead_generation_task; contact_research_task; lead_qualification_task;
   sales_management_task].

Definition crew : Crew :=
  {| crew_agents := agents;
     crew_tasks := tasks;
     crew_process := sequential;
     crew_verbose := true;
     crew_usage_metrics := ∅ |}.

Definition _fallback_response (pyd : pydantic_major)
    (inputs : gmap string value) : outcome LeadOutput :=
  LeadOutput_new pyd
    {| kw_company_name := Given (Some "Erro na geração");
       kw_annual_revenue := Omitted;
       kw_location := Omitted;
       kw_website_url := Omitted;
       kw_review :=
         Given (Some ("Houve um erro ao processar a solicitação: "
                      ++ format (get inputs "topic" (PyStr "N/A"))));
       kw_num_employees := Omitted;
       kw_key_decision_makers := Omitted;
       kw_score := Given (Some 0%Z) |}.

(** [LeadGenerator()] on the CrewAI-backed class: [fallback_mode] is set,
    then [CrewBase] initialises the instance, which is the engine's
    business and may raise. *)
Definition construct (crewbase_init : outcome unit) : outcome Instance :=
  _ ← crewbase_init; Returns __init__.

Section Delegation.

(** [Crew.kickoff], the engine: whatever building and running the
    pipeline on [inputs] does, it ends by returning its output object or
    by raising. *)
Variable kickoff : Crew → gmap string value → outcome CrewOutput.t.

(** [run] has no return annotation: it hands on what [kickoff] returns,
    or the [LeadOutput] of [_fallback_response]. The handler also prints
    the error; the module was loaded in this mode only if standard output
    took the probe's message. *)
Definition run (pyd : pydantic_major) (inputs : gmap string value)
  : outcome run_result :=
  try_except (FromEngine <$> kickoff crew inputs)
    (λ _, Structured <$> _fallback_response pyd inputs).

End Delegation.

End LeadGenerator.

(** ** The limited class (the [else] branch, also named [LeadGenerator]) *)

Module FallbackLeadGenerator.

Definition __init__ : Instance := {| fallback_mode := true |}.

Definition run (pyd : pydantic_major) (inputs : gmap string value)
  : outcome LeadOutput :=
  LeadOutput_new pyd
    {| kw_company_name := Given (Some "Modo Limitado");
       kw_annual_revenue := Omitted;
       kw_location := Given (Some (<["city" := "N/A"]> (<["country" := "N/A"]> ∅)));
       kw_website_url := Omitted;
       kw_review :=
         Given (Some ("CrewAI indisponível. Tópico solicitado: "
                      ++ format (get inputs "topic" (PyStr "N/A"))));
       kw_num_employees := Omitted;
       kw_key_decision_makers := Omitted;
       kw_score := Given (Some 0%Z) |}.

(** The mocked [crew()] returns [None]. *)
Definition crew : option Crew := None.

(** The imports and the four notices are inside one [try] whose only
    handler is [except ImportError: pass]. [ui_import] is what
    [import streamlit as st] does. *)
Definition _show_error_if_streamlit (st : ModuleState)
    (ui_import : import_outcome) : shown unit :=
  if IS_STREAMLIT st then
    match ui_import with
    | Imported =>
        ([St.error "⚠️ CrewAI não está disponível neste ambiente";
          St.info "A aplicação está rodando em modo limitado";
          St.code (PyStr ("Erro técnico: "
                          ++ format (optional_text (IMPORT_ERROR st))));
          St.warning "Por favor, verifique as dependências do projeto"],
         Returns tt)
    | ImportRaises e =>
        if isinstance_ImportError e then ([], Returns tt)
        else ([], Raises (External e))
    end
  else ([], Returns tt).

(** [LeadGenerator()] on the limited class. *)
Definition construct (st : ModuleState) (ui_import : import_outcome)
  : shown Instance :=
  let '(calls, r) := _show_error_if_streamlit st ui_import in
  (calls, _ ← r; Returns __init__).

End FallbackLeadGenerator.

(** ** The facade and the life of a process *)

Section Facade.

Variable kickoff : Crew → gmap string value → outcome CrewOutput.t.
Variable pyd : pydantic_major.

(** The name [LeadGenerator] is bound once, when the module is loaded,
    to one class or the other. *)
Definition LeadGenerator_new (st : ModuleState) : Instance :=
  if CREWAI_AVAILABLE st then LeadGenerator.__init__
  else FallbackLeadGenerator.__init__.

Definition LeadGenerator_run (st : ModuleState) (inputs : gmap string value)
  : outcome run_result :=
  if CREWAI_AVAILABLE st then LeadGenerator.run kickoff pyd inputs
  else Structured <$> FallbackLeadGenerator.run pyd inputs.

(** What a caller can do with the loaded module. *)
Inductive call :=
| call_is_crewai_available
| call_get_import_error
| call_LeadGenerator
| call_run (inputs : gmap string value).

Inductive reply :=
| reply_bool (b : bool)
| reply_error (e : option string)
| reply_instance (i : Instance)
| reply_result (r : outcome run_result).

(** One call: its reply and the globals it leaves. None of the functions
    assigns a global. *)
Definition serve (st : ModuleState) (c : call) : reply * ModuleState :=
  match c with
  | call_is_crewai_available => (reply_bool (is_crewai_available st), st)
  | call_get_import_error => (reply_error (get_import_error st), st)
  | call_LeadGenerator => (reply_instance (LeadGenerator_new st), st)
  | call_run inputs => (reply_result (LeadGenerator_run st inputs), st)
  end.

Fixpoint serve_all (st : ModuleState) (cs : list call)
  : list reply * ModuleState :=
  match cs with
  | [] => ([], st)
  | c :: cs' =>
      let '(r, st') := serve st c in
      let '(rs, st'') := serve_all st' cs' in
      (r :: rs, st'')
  end.

End Facade.

(** A process from its start to its first request: the module is loaded,
    then [LeadGenerator().run(inputs)] is called. *)
Definition load_and_run kickoff (env : Environment)
    (inputs : gmap string value) : outcome run_result :=
  st ← probe env;
  LeadGenerator_run kickoff (pydantic env) st inputs.

(** ** The dashboard ([streamlit_app.py]) *)

Module Dashboard.

(** Python truth of an optional text: [None] and the empty text are
    false. *)
Definition truthy (o : option string) : bool :=
  match o with
  | Some (String _ _) => true
  | _ => false
  end.

(** [text or "N/A"]. *)
Definition or_NA (o : option string) : string :=
  match o with
  | Some (String a s) => String a s
  | _ => "N/A"
  end.

(** [number or "N/A"]: zero is false too. *)
Definition number_or_NA (o : option Z) : value :=
  match o with
  | Some z => if (z =? 0)%Z then PyStr "N/A" else PyInt z
  | None => PyStr "N/A"
  end.

(** [result.score or 0]. *)
Definition score_or_0 (o : option Z) : Z :=
  match o with
  | Some z => if (z =? 0)%Z then 0%Z else z
  | None => 0%Z
  end.

(** [d.get(key, default)] on a dict of texts. *)
Definition get_text (d : gmap string string) (key default : string) : string :=
  match d !! key with
  | Some v => v
  | None => default
  end.

(** Lines 27 to 40: the notice at the top of the page. *)
Definition status_banner (st : ModuleState) : list St.widget :=
  if negb (is_crewai_available st) then
    [St.error "⚠️ Sistema em modo limitado";
     St.warning ("CrewAI indisponível: "
                 ++ format (optional_text (get_import_error st)));
     St.info "Algumas funcionalidades podem estar limitadas.";
     St.expander "🔍 Detalhes técnicos";
     St.code (optional_text (get_import_error st));
     St.markdown "
        **Possíveis soluções:**
        - Verifique se todas as dependências estão instaladas
        - Aguarde alguns minutos e recarregue a página
        - Entre em contato com o suporte técnico
        "]
  else [].

(** Lines 43 to 57: the sidebar. [api_key] is
    [os.getenv("OPENAI_API_KEY")]. *)
Definition sidebar (st : ModuleState) (api_key : option string)
  : list St.widget :=
  [St.header "⚙️ Configurações";
   if is_crewai_available st then St.success "✅ Sistema funcionando"
   else St.error "❌ Sistema limitado";
   if truthy api_key then St.success "🔑 API Key configurada"
   else St.warning "🔑 API Key não encontrada"].

(** Lines 139 to 144: the remark under the score. *)
Definition score_remark (score : Z) : St.widget :=
  if (8 <=? score)%Z then St.success "🎯 Lead excelente!"
  else if (6 <=? score)%Z then St.info "👍 Lead promissor"
  else St.warning "⚠️ Lead para análise".

(** Lines 162 to 165: one key contact. *)
Definition show_contact (contact : gmap string string) : list St.widget :=
  [St.expander ("👤 " ++ get_text contact "name" "N/A");
   St.write ("**Cargo:** " ++ get_text contact "position" "N/A")]
  ++ match contact !! "linkedin" with
     | Some (String c url) => [St.link_button "🔗 LinkedIn" (String c url)]
     | _ => []
     end.

(** Lines 121 to 165: a result that has the attribute [company_name]. *)
Definition show_result (result : LeadOutput) : list St.widget :=
  [St.subheader "📋 Resultado";
   St.columns 3;
   St.metric "🏢 Empresa" (PyStr (or_NA (company_name result)))]
  ++ match website_url result with
     | Some (String c url) => [St.link_button "🌐 Website" (String c url)]
     | _ => []
     end
  ++ [St.metric "💰 Receita" (PyStr (or_NA (annual_revenue result)));
      St.metric "👥 Funcionários" (number_or_NA (num_employees result));
      St.metric "⭐ Score"
        (PyStr (str_int (score_or_0 (score result)) ++ "/10"));
      score_remark (score_or_0 (score result))]
  ++ match review result with
     | Some (String c text) => [St.subheader "📝 Descrição"; St.write (String c text)]
     | _ => []
     end
  ++ match location result with
     | Some loc =>
         if decide (loc = ∅) then []
         else [St.subheader "📍 Localização";
               St.write ("**Cidade:** " ++ get_text loc "city" "N/A");
               St.write ("**País:** " ++ get_text loc "country" "N/A")]
     | None => []
     end
  ++ match key_decision_makers result with
     | Some (contact :: contacts) =>
         St.subheader "👥 Contatos-chave"
         :: concat (show_contact <$> (contact :: contacts))
     | _ => []
     end.

Section Script.

Variable kickoff : Crew → gmap string value → outcome CrewOutput.t.
Variable crewbase_init : outcome unit.
Variable pyd : pydantic_major.

(** Lines 119 to 170: the result is shown field by field when it has the
    attribute [company_name], and handed to [st.write] otherwise. *)
Definition show (result : run_result) : list St.widget :=
  match result with
  | Structured r => show_result r
  | FromEngine _ => [St.subheader "📋 Resultado"; St.write_object result]
  end.

(** Lines 110 and 113: [LeadGenerator()] then [generator.run(inputs)].
    The script imported [streamlit] on its first line, so the import in
    the limited constructor only looks the module up. *)
Definition generate (st : ModuleState) (inputs : gmap string value)
  : shown run_result :=
  if CREWAI_AVAILABLE st then
    ([], _ ← LeadGenerator.construct crewbase_init;
         LeadGenerator.run kickoff pyd inputs)
  else
    let '(calls, r) := FallbackLeadGenerator.construct st Imported in
    (calls, _ ← r; Structured <$> FallbackLeadGenerator.run pyd inputs).

(** Lines 96 to 100. *)
Definition make_inputs (topic : string) (max_leads : Z)
    (additional_info : string) : gmap string value :=
  <["topic" := PyStr topic]>
    (<["max_leads" := PyInt max_leads]>
       (<["additional_info" := PyStr additional_info]> ∅)).

(** Lines 91 to 176: what the script does once the form is submitted. *)
Definition on_submit (st : ModuleState) (topic : string) (max_leads : Z)
    (additional_info : string) : list St.widget :=
  match topic with
  | EmptyString => [St.error "❌ Por favor, insira um tópico para busca"]
  | String _ _ =>
      let inputs := make_inputs topic max_leads additional_info in
      (if negb (is_crewai_available st)
       then [St.warning "⚠️ Executando em modo limitado"] else [])
      ++ [St.spinner "🔍 Gerando leads... Isso pode levar alguns minutos"]
      ++ let '(calls, r) := generate st inputs in
         calls
         ++ match r with
            | Returns result =>
                St.success "✅ Leads gerados com sucesso!" :: show result
            | Raises e =>
                St.error_f "❌ Erro ao gerar leads: " e
                :: (if negb (is_crewai_available st)
                    then [St.info "💡 Este erro pode estar relacionado às limitações do modo atual"] else [])
            end
  end.

End Script.

End Dashboard.

(** ** Scenarios *)

(** Scenario A of the specification. *)
Definition scenario_A : gmap string value :=
  {[ "topic" := PyStr "fintech startups in Berlin" ]}.

(** A request as the dashboard builds it. *)
Definition dashboard_request : gmap string value :=
  <["topic" := PyStr "fintech startups in Berlin"]>
    (<["max_leads" := PyInt 3]> (<["additional_info" := PyStr ""]> ∅)).

(** A request without the [topic] key. *)
Definition request_without_topic : gmap string value :=
  <["max_leads" := PyInt 3]> ∅.

Definition limited_state : ModuleState :=
  {| IS_STREAMLIT := false; CREWAI_AVAILABLE := false;
     IMPORT_ERROR := Some "No module named 'crewai'" |}.

Definition live_state : ModuleState :=
  {| IS_STREAMLIT := false; CREWAI_AVAILABLE := true; IMPORT_ERROR := None |}.

Definition ConnectionError : EnvError :=
  {| err_class := OtherException "ConnectionError";
     err_text := "Connection refused" |}.

(** An engine whose pipeline fails with [ConnectionError] (scenario B). *)
Definition failing_engine : Crew → gmap string value → outcome CrewOutput.t :=
  λ _ _, Raises (External ConnectionError).

(** A populated structured output with [score = 9] (scenario C). *)
Definition acme_lead : LeadOutput :=
  {| company_name := Some "Acme GmbH";
     annual_revenue := Some "12M EUR";
     location := Some (<["city" := "Berlin"]> (<["country" := "Germany"]> ∅));
     website_url := Some "https://acme.example";
     review := Some "Payments infrastructure for small merchants";
     num_employees := Some 85%Z;
     key_decision_makers :=
       Some [<["name" := "A. Weber"]> (<["position" := "CTO"]> ∅)];
     score := Some 9%Z |}.

(** What the engine returns for it. *)
Definition acme_output : CrewOutput.t :=
  {| CrewOutput.raw := "Acme GmbH, Berlin: payments infrastructure, fit 9";
     CrewOutput.pydantic := Some acme_lead |}.

Definition succeeding_engine : Crew → gmap string value → outcome CrewOutput.t :=
  λ _ _, Returns acme_output.

(** CrewAI is not installed and pydantic is the 1.x line. *)
Definition env_without_crewai : Environment :=
  {| streamlit_in_sys_modules := true;
     streamlit_in_argv := true;
     import_crewai :=
       ImportRaises {| err_class := ModuleNotFoundError;
                       err_text := "No module named 'crewai'" |};
     import_crewai_project := Imported;
     import_crewai_tools := Imported;
     import_streamlit := Imported;
     stdout_rejects := None;
     pydantic := PydanticV1 |}.

(** CrewAI fails to load in a running Streamlit host, as on a platform
    whose SQLite is too old for CrewAI's vector store; pydantic is the 2.x
    line CrewAI depends on. *)
Definition env_crewai_unusable : Environment :=
  {| streamlit_in_sys_modules := true;
     streamlit_in_argv := true;
     import_crewai :=
       ImportRaises {| err_class := OtherException "RuntimeError";
                       err_text := "Your system has an unsupported version of sqlite3." |};
     import_crewai_project := Imported;
     import_crewai_tools := Imported;
     import_streamlit := Imported;
     stdout_rejects := None;
     pydantic := PydanticV2 |}.

(** The module is loaded by a script whose command line mentions
    [streamlit] while Streamlit itself is not loaded, CrewAI is not
    installed, and loading Streamlit fails with something else than
    [ImportError]. *)
Definition env_broken_streamlit : Environment :=
  {| streamlit_in_sys_modules := false;
     streamlit_in_argv := true;
     import_crewai :=
       ImportRaises {| err_class := ModuleNotFoundError;
                       err_text := "No module named 'crewai'" |};
     import_crewai_project := Imported;
     import_crewai_tools := Imported;
     import_streamlit :=
       ImportRaises {| err_class := OtherException "TypeError";
                       err_text := "Descriptors cannot be created directly." |};
     stdout_rejects := None;
     pydantic := PydanticV2 |}.

(** Every import succeeds, but standard output is a pipe with an ASCII
    codec. *)
Definition env_ascii_stdout : Environment :=
  {| streamlit_in_sys_modules := false;
     streamlit_in_argv := false;
     import_crewai := Imported;
     import_crewai_project := Imported;
     import_crewai_tools := Imported;
     import_streamlit := Imported;
     stdout_rejects :=
       Some (λ message,
               if startswith "✅" message
               then "'ascii' codec can't encode character '\u2705' in position 0: ordinal not in range(128)"
               else "'ascii' codec can't encode character '\u274c' in position 0: ordinal not in range(128)");
     pydantic := PydanticV2 |}.

(** * Properties *)

(** ** Text *)

Lemma startswith_self (t : string) : startswith t t = true.
Proof.
  induction t as [|c t IH]; simpl.
  - reflexivity.
  - by rewrite Ascii.eqb_refl, IH.
Qed.

Lemma contains_self (t : string) : contains t t = true.
Proof.
  destruct t as [|c t]; [reflexivity|].
  change (startswith (String c t) (String c t) || contains (String c t) t = true).
  by rewrite startswith_self.
Qed.

(** Text that ends with [t] contains [t]. *)
Lemma contains_suffix (p t : string) : contains t (p ++ t) = true.
Proof.
  induction p as [|c p IH].
  - apply contains_self.
  - change (startswith t (String c (p ++ t)) || contains t (p ++ t) = true).
    rewrite IH. apply orb_true_r.
Qed.

(** ** The schema *)

(** Passing [None] for every field is accepted by both lines of the
    library and gives the result with every field absent. *)
Lemma LeadOutput_new_all_None (pyd : pydantic_major) :
  LeadOutput_new pyd all_None_kwargs = Returns absent_LeadOutput.
Proof. by destruct pyd. Qed.

(** pydantic 1.x never asks for a field of [LeadOutput]. *)
Lemma LeadOutput_new_v1_returns (kw : LeadOutput_kwargs) :
  returned (LeadOutput_new PydanticV1 kw) = true.
Proof.
  destruct kw as [[|?] [|?] [|?] [|?] [|?] [|?] [|?] [|?]]; reflexivity.
Qed.

(** pydantic 2.x asks for all eight. *)
Lemma LeadOutput_new_v2_requires_all :
  LeadOutput_new PydanticV2 no_kwargs =
  Raises (ValidationError "LeadOutput"
            ["company_name"; "annual_revenue"; "location"; "website_url";
             "review"; "num_employees"; "key_decision_makers"; "score"]).
Proof. reflexivity. Qed.

(** ** The degraded paths on pydantic 1.x *)

Lemma limited_run_v1 (inputs : gmap string value) :
  FallbackLeadGenerator.run PydanticV1 inputs =
  Returns {| company_name := Some "Modo Limitado";
             annual_revenue := None;
             location := Some (<["city" := "N/A"]> (<["country" := "N/A"]> ∅));
             website_url := None;
             review := Some ("CrewAI indisponível. Tópico solicitado: "
                             ++ format (get inputs "topic" (PyStr "N/A")));
             num_employees := None;
             key_decision_makers := None;
             score := Some 0%Z |}.
Proof. reflexivity. Qed.

Lemma fallback_response_v1 (inputs : gmap string value) :
  LeadGenerator._fallback_response PydanticV1 inputs =
  Returns {| company_name := Some "Erro na geração";
             annual_revenue := None;
             location := None;
             website_url := None;
             review := Some ("Houve um erro ao processar a solicitação: "
                             ++ format (get inputs "topic" (PyStr "N/A")));
             num_employees := None;
             key_decision_makers := None;
             score := Some 0%Z |}.
Proof. reflexivity. Qed.

(** On pydantic 1.x the facade returns whatever the engine does. *)
Lemma facade_run_returns_v1 kickoff (st : ModuleState)
    (inputs : gmap string value) :
  returned (LeadGenerator_run kickoff PydanticV1 st inputs) = true.
Proof.
  unfold LeadGenerator_run, LeadGenerator.run.
  destruct (CREWAI_AVAILABLE st); [|reflexivity].
  destruct (kickoff _ _); reflexivity.
Qed.

(** On pydantic 1.x both degraded results echo a textual topic. *)
Lemma degraded_review_echoes_topic_v1 (inputs : gmap string value) (t : string) :
  inputs !! "topic" = Some (PyStr t) →
  ∃ r1 r2 text1 text2,
    FallbackLeadGenerator.run PydanticV1 inputs = Returns r1 ∧
    LeadGenerator._fallback_response PydanticV1 inputs = Returns r2 ∧
    review r1 = Some text1 ∧ contains t text1 = true ∧
    review r2 = Some text2 ∧ contains t text2 = true.
Proof.
  intros Ht. rewrite limited_run_v1, fallback_response_v1.
  unfold get. rewrite Ht. simpl format.
  do 4 eexists. repeat split; apply contains_suffix.
Qed.

(** On pydantic 1.x a request without [topic] is answered with "N/A". *)
Lemma degraded_review_without_topic_v1 (inputs : gmap string value) :
  inputs !! "topic" = None →
  review <$> FallbackLeadGenerator.run PydanticV1 inputs
    = Returns (Some "CrewAI indisponível. Tópico solicitado: N/A") ∧
  review <$> LeadGenerator._fallback_response PydanticV1 inputs
    = Returns (Some "Houve um erro ao processar a solicitação: N/A").
Proof.
  intros Ht. rewrite limited_run_v1, fallback_response_v1.
  unfold get. rewrite Ht. done.
Qed.

(** ** The degraded paths on pydantic 2.x *)

(** C2: with the engine unavailable, [run] is expected to return the
    "Modo Limitado" result (score 0, location N/A/N/A, review echoing the
    topic). On pydantic 2.x the constructor call of the limited [run]
    leaves four required fields out, so for every [inputs] the call raises
    [ValidationError] and no result is returned. *)
Theorem limited_run_raises_validation_error (inputs : gmap string value) :
  FallbackLeadGenerator.run PydanticV2 inputs =
  Raises (ValidationError "LeadOutput"
            ["annual_revenue"; "website_url"; "num_employees";
             "key_decision_makers"]).
Proof. reflexivity. Qed.

(** C3: when the pipeline raises, [run] is expected to return the
    "Erro na geração" result (score 0, review echoing the topic). On
    pydantic 2.x [_fallback_response] leaves five required fields out, so
    whatever the pipeline raised is replaced by a [ValidationError] that
    leaves [run]. *)
Theorem engine_failure_raises_validation_error (inputs : gmap string value)
    (e : exception) :
  LeadGenerator.run (λ _ _, Raises e) PydanticV2 inputs =
  Raises (ValidationError "LeadOutput"
            ["annual_revenue"; "location"; "website_url"; "num_employees";
             "key_decision_makers"]).
Proof. reflexivity. Qed.

(** C1: [run] is expected never to raise. On pydantic 2.x, in either mode,
    a request that reaches a degraded path (the engine is unavailable, or
    its pipeline raises) ends with an exception leaving [run]. *)
Theorem run_raises_on_degraded_paths (st : ModuleState)
    (inputs : gmap string value) (e : exception) :
  returned (LeadGenerator_run (λ _ _, Raises e) PydanticV2 st inputs) = false.
Proof. unfold LeadGenerator_run. by destruct (CREWAI_AVAILABLE st). Qed.

(** C9: a request without [topic] is expected to be answered with "N/A"
    in the review. The lookup does fall back to "N/A", but on pydantic 2.x
    both degraded paths then raise [ValidationError] like for any other
    request. *)
Theorem missing_topic_raises_validation_error :
  request_without_topic !! "topic" = None ∧
  FallbackLeadGenerator.run PydanticV2 request_without_topic =
    Raises (ValidationError "LeadOutput"
              ["annual_revenue"; "website_url"; "num_employees";
               "key_decision_makers"]) ∧
  LeadGenerator.run failing_engine PydanticV2 request_without_topic =
    Raises (ValidationError "LeadOutput"
              ["annual_revenue"; "location"; "website_url"; "num_employees";
               "key_decision_makers"]).
Proof. done. Qed.

(** Scenario A from the start of the process, on either line of the
    schema library. *)
Lemma scenario_A_without_crewai :
  load_and_run failing_engine env_without_crewai scenario_A =
  Returns (Structured
          {| company_name := Some "Modo Limitado";
             annual_revenue := None;
             location := Some (<["city" := "N/A"]> (<["country" := "N/A"]> ∅));
             website_url := None;
             review := Some "CrewAI indisponível. Tópico solicitado: fintech startups in Berlin";
             num_employees := None;
             key_decision_makers := None;
             score := Some 0%Z |}).
Proof. reflexivity. Qed.

Lemma scenario_A_crewai_unusable :
  load_and_run failing_engine env_crewai_unusable scenario_A =
  Raises (ValidationError "LeadOutput"
            ["annual_revenue"; "website_url"; "num_employees";
             "key_decision_makers"]).
Proof. reflexivity. Qed.

(** ** Results *)

(** On pydantic 1.x every degraded invocation, by unavailability or by a
    failure of the pipeline, returns a [LeadOutput] with the sentinels. *)
Lemma degraded_run_returns_sentinels_v1 kickoff (st : ModuleState)
    (inputs : gmap string value) :
  CREWAI_AVAILABLE st = false ∨
    returned (kickoff LeadGenerator.crew inputs) = false →
  ∃ r : LeadOutput,
    LeadGenerator_run kickoff PydanticV1 st inputs = Returns (Structured r) ∧
    (company_name r = Some "Modo Limitado" ∨
     company_name r = Some "Erro na geração") ∧
    is_Some (review r) ∧
    score r = Some 0%Z.
Proof.
  intros Hdegraded. unfold LeadGenerator_run, LeadGenerator.run.
  destruct (CREWAI_AVAILABLE st).
  - destruct Hdegraded as [?|Hk]; [done|].
    destruct (kickoff _ _); [done|].
    eexists. split; [reflexivity|]. simpl. eauto.
  - eexists. split; [reflexivity|]. simpl. eauto.
Qed.


(** The engine hands back a wrapper that carries the structured output,
    and [run] returns that wrapper: the value has no [company_name], and
    it is not the [LeadOutput] the pipeline produced. *)
Lemma delegated_result_not_coerced :
  succeeding_engine LeadGenerator.crew dashboard_request = Returns acme_output ∧
  CrewOutput.pydantic acme_output = Some acme_lead ∧
  LeadGenerator_run succeeding_engine PydanticV2 live_state dashboard_request
    ≠ Returns (Structured acme_lead) ∧
  hasattr_company_name
    <$> LeadGenerator_run succeeding_engine PydanticV2 live_state
          dashboard_request
    = Returns false.
Proof. repeat split. discriminate. Qed.

(** C5, as the code has it: when the engine is available and its pipeline
    completes, [run] returns the engine's output object itself, unchanged:
    the structured output stays, untouched, in its [pydantic] attribute,
    and no [LeadOutput] is made of it. *)
Theorem delegated_output_passes_through kickoff (pyd : pydantic_major)
    (st : ModuleState) (inputs : gmap string value) (out : CrewOutput.t) :
  CREWAI_AVAILABLE st = true →
  kickoff LeadGenerator.crew inputs = Returns out →
  LeadGenerator_run kickoff pyd st inputs = Returns (FromEngine out) ∧
  ∀ r : LeadOutput,
    LeadGenerator_run kickoff pyd st inputs ≠ Returns (Structured r).
Proof.
  intros Hav Hk. unfold LeadGenerator_run, LeadGenerator.run.
  rewrite Hav, Hk. split; [reflexivity|]. intros r. discriminate.
Qed.

Lemma delegated_output_passes_through_witness :
  LeadGenerator_run succeeding_engine PydanticV2 live_state dashboard_request
    = Returns (FromEngine acme_output) ∧
  ∀ r : LeadOutput,
    LeadGenerator_run succeeding_engine PydanticV2 live_state
      dashboard_request ≠ Returns (Structured r).
Proof.
  apply (delegated_output_passes_through succeeding_engine PydanticV2
           live_state dashboard_request acme_output); reflexivity.
Defined.



(** ** The pipeline *)

(** X4: every task named in a context comes earlier in the crew's task
    list than the task that names it, so under the sequential process a
    task runs after all the tasks whose output it takes. *)
Lemma context_precedes (i : nat) (t d : Task) :
  crew_tasks LeadGenerator.crew !! i = Some t →
  d ∈ context_of t →
  ∃ j, j < i ∧ crew_tasks LeadGenerator.crew !! j = Some d.
Proof.
  intros Ht Hd.
  destruct i as [|[|[|[|i]]]]; simpl in Ht; [| | | |done];
    injection Ht as <-; cbn in Hd.
  - by apply elem_of_nil in Hd.
  - apply list_elem_of_singleton in Hd as ->. exists 0. split; [lia|done].
  - repeat (apply elem_of_cons in Hd as [->|Hd]);
      [exists 0|exists 1|by apply elem_of_nil in Hd]; (split; [lia|done]).
  - repeat (apply elem_of_cons in Hd as [->|Hd]);
      [exists 0|exists 2|exists 1|by apply elem_of_nil in Hd];
      (split; [lia|done]).
Qed.

(** C6: the crew is built with exactly four tasks, in the order
    generation, contact research, qualification, management; contact
    research takes the generation task as context, qualification takes
    generation and contact research, management takes generation,
    qualification and contact research; and the process is sequential. *)
Theorem task_wiring_fixed :
  crew_tasks LeadGenerator.crew =
    [LeadGenerator.lead_generation_task; LeadGenerator.contact_research_task;
     LeadGenerator.lead_qualification_task;
     LeadGenerator.sales_management_task] ∧
  length (crew_tasks LeadGenerator.crew) = 4 ∧
  task_config <$> crew_tasks LeadGenerator.crew =
    ["lead_generation_task"; "contact_research_task";
     "lead_qualification_task"; "sales_management_task"] ∧
  task_context LeadGenerator.contact_research_task =
    Some [LeadGenerator.lead_generation_task] ∧
  task_context LeadGenerator.lead_qualification_task =
    Some [LeadGenerator.lead_generation_task;
          LeadGenerator.contact_research_task] ∧
  task_context LeadGenerator.sales_management_task =
    Some [LeadGenerator.lead_generation_task;
          LeadGenerator.lead_qualification_task;
          LeadGenerator.contact_research_task] ∧
  crew_process LeadGenerator.crew = sequential.
Proof. repeat split. Qed.

(** ** The availability probe *)

(** The probe returns only when standard output takes its messages. *)
Lemma probe_returns_stdout (env : Environment) (st : ModuleState) :
  probe env = Returns st → stdout_rejects env = None.
Proof.
  unfold probe, probe_handler, console_print.
  destruct (stdout_rejects env); [|done].
  by destruct (acquire env).
Qed.

(** Whenever the probe returns, the globals tell what the imports did. *)
Lemma probe_records_outcome (env : Environment) (st : ModuleState) :
  probe env = Returns st →
  match acquire env with
  | Imported => is_crewai_available st = true ∧ get_import_error st = None
  | ImportRaises e =>
      is_crewai_available st = false ∧ get_import_error st = Some (str_exc e)
  end.
Proof.
  intros Hprobe. pose proof (probe_returns_stdout env st Hprobe) as Hout.
  revert Hprobe. unfold probe, probe_handler, console_print. rewrite Hout.
  destruct (acquire env) as [|e].
  - by intros [= <-].
  - destruct (_ || _).
    + destruct (import_streamlit_guarded env); [|done]. by intros [= <-].
    + by intros [= <-].
Qed.

(** With a standard output that takes its messages, the probe returns
    unless it loads the UI module and that fails with something else than
    [ImportError]. *)
Lemma probe_returns (env : Environment) :
  stdout_rejects env = None →
  returned (import_streamlit_guarded env) = true →
  returned (probe env) = true.
Proof.
  unfold probe, probe_handler, console_print. intros -> Hui.
  destruct (acquire env); [done|].
  destruct (_ || _); [|done].
  by destruct (import_streamlit_guarded env).
Qed.

(** Outside Streamlit, and under a running Streamlit, it always does. *)
Lemma probe_returns_without_ui_import (env : Environment) :
  stdout_rejects env = None →
  streamlit_in_sys_modules env = true ∨ streamlit_in_argv env = false →
  returned (probe env) = true.
Proof.
  unfold probe, probe_handler, console_print, import_streamlit_guarded.
  intros -> H.
  destruct (acquire env); [done|].
  destruct (streamlit_in_sys_modules env); [done|].
  destruct H as [H|H]; [done|]. by rewrite H.
Qed.

(** With every import succeeding, a standard output that cannot encode
    the messages still makes the module load fail. *)
Lemma probe_ascii_stdout :
  acquire env_ascii_stdout = Imported ∧
  probe env_ascii_stdout =
  Raises (External (UnicodeEncodeError
    "'ascii' codec can't encode character '\u274c' in position 0: ordinal not in range(128)")).
Proof. done. Qed.

Lemma probe_without_crewai :
  probe env_without_crewai =
  Returns {| IS_STREAMLIT := true; CREWAI_AVAILABLE := false;
             IMPORT_ERROR := Some "No module named 'crewai'" |}.
Proof. reflexivity. Qed.

(** C7: the probe is expected to end normally whatever the imports do. It
    does not when the imports fail, the command line mentions Streamlit,
    Streamlit is not loaded yet and loading it raises something that is
    not an [ImportError]: the handler's own [import streamlit] is guarded
    by [except ImportError] only, and that exception leaves the probe. *)
Theorem probe_propagates_ui_import_failure :
  acquire env_broken_streamlit =
    ImportRaises {| err_class := ModuleNotFoundError;
                    err_text := "No module named 'crewai'" |} ∧
  probe env_broken_streamlit =
    Raises (External {| err_class := OtherException "TypeError";
                        err_text := "Descriptors cannot be created directly." |}).
Proof. done. Qed.

(** ** The life of a process *)

Lemma serve_state kickoff (pyd : pydantic_major) (st : ModuleState) (c : call) :
  (serve kickoff pyd st c).2 = st.
Proof. by destruct c. Qed.

(** No sequence of calls changes the globals. *)
Lemma serve_all_state kickoff (pyd : pydantic_major) (st : ModuleState)
    (cs : list call) :
  (serve_all kickoff pyd st cs).2 = st.
Proof.
  induction cs as [|c cs IH]; simpl; [done|].
  pose proof (serve_state kickoff pyd st c) as Hc.
  destruct (serve kickoff pyd st c) as [r st']. simpl in Hc. subst st'.
  destruct (serve_all kickoff pyd st cs) as [rs st'']. simpl in *. done.
Qed.

(** C8: the result of the probe is stable within a process. After any
    calls [before], two consecutive availability queries get the same
    boolean and two consecutive error queries the same optional text, and
    so do two queries separated by any calls [between]: the globals are
    what the probe left. *)
Theorem probe_result_stable kickoff (pyd : pydantic_major) (st : ModuleState)
    (before between : list call) :
  let st1 := (serve_all kickoff pyd st before).2 in
  let st2 := (serve_all kickoff pyd st1 between).2 in
  (serve_all kickoff pyd st1
     [call_is_crewai_available; call_is_crewai_available]).1
    = [reply_bool (CREWAI_AVAILABLE st); reply_bool (CREWAI_AVAILABLE st)] ∧
  (serve_all kickoff pyd st1
     [call_get_import_error; call_get_import_error]).1
    = [reply_error (IMPORT_ERROR st); reply_error (IMPORT_ERROR st)] ∧
  is_crewai_available st2 = is_crewai_available st ∧
  get_import_error st2 = get_import_error st.
Proof.
  intros st1 st2. subst st2 st1. rewrite !serve_all_state. done.
Qed.

(** * The rest of the module and the dashboard *)

(** ** More on the probe *)

(** X1: the probe raises in exactly two situations. Either standard
    output cannot encode the module's messages: then, whether the imports
    succeeded or not, the handler's own [print] raises, and what leaves
    the probe is its [UnicodeEncodeError], for the message that carries
    the text of the error the handler was entered with. Or standard output
    takes the messages, an import of the [try] block failed, the command
    line mentions Streamlit, Streamlit is not loaded yet, and loading it
    raises something that is not an [ImportError]: then that exception
    leaves the probe. *)
Theorem probe_raises_exactly_when (env : Environment) (x : exception) :
  probe env = Raises x ↔
  (∃ text_of,
     stdout_rejects env = Some text_of ∧
     x = External
           (UnicodeEncodeError
              (text_of
                 ("❌ Erro ao importar CrewAI: "
                  ++ match acquire env with
                     | Imported => text_of "✅ CrewAI importado com sucesso!"
                     | ImportRaises e => err_text e
                     end)))) ∨
  (stdout_rejects env = None ∧
   acquire env ≠ Imported ∧
   streamlit_in_sys_modules env = false ∧
   streamlit_in_argv env = true ∧
   ∃ e, import_streamlit env = ImportRaises e ∧
        isinstance_ImportError e = false ∧
        x = External e).
Proof.
  unfold probe, probe_handler, console_print, import_streamlit_guarded.
  destruct (stdout_rejects env) as [text_of|].
  { split.
    - intros H. left. exists text_of. split; [done|].
      destruct (acquire env); by injection H as <-.
    - intros [(t & [= <-] & ->)|[[=] _]]. by destruct (acquire env). }
  split.
  - intros H. right. split; [done|].
    destruct (acquire env) as [|e0]; [done|]. split; [done|].
    destruct (streamlit_in_sys_modules env); [done|].
    destruct (streamlit_in_argv env); [|done]. simpl in H.
    destruct (import_streamlit env) as [|e]; [done|].
    destruct (isinstance_ImportError e) eqn:He; [done|].
    injection H as <-. repeat split. by exists e.
  - intros [(t & [=] & _)|(_ & Hacq & -> & -> & e & -> & -> & ->)].
    by destruct (acquire env).
Qed.

(** X2: in the globals the probe leaves, the engine is available exactly
    when no diagnostic is recorded, and exactly when each of the three
    imports succeeded; [IS_STREAMLIT] holds when Streamlit is loaded or
    named on the command line. *)
Theorem probe_state_invariant (env : Environment) (st : ModuleState) :
  probe env = Returns st →
  (is_crewai_available st = true ↔ get_import_error st = None) ∧
  (is_crewai_available st = true ↔
     import_crewai env = Imported ∧
     import_crewai_project env = Imported ∧
     import_crewai_tools env = Imported) ∧
  IS_STREAMLIT st = streamlit_in_sys_modules env || streamlit_in_argv env.
Proof.
  intros Hprobe. pose proof (probe_returns_stdout env st Hprobe) as Hout.
  revert Hprobe.
  unfold probe, probe_handler, console_print, acquire, then_import.
  rewrite Hout.
  destruct (import_crewai env), (import_crewai_project env),
    (import_crewai_tools env);
    (destruct (_ || _);
     [try destruct (import_streamlit_guarded env)|]);
    simpl; try done; intros [= <-]; simpl; intuition congruence.
Qed.

Lemma probe_state_invariant_witness :
  (false = true ↔ Some "No module named 'crewai'" = None) ∧
  (false = true ↔
     import_crewai env_without_crewai = Imported ∧
     import_crewai_project env_without_crewai = Imported ∧
     import_crewai_tools env_without_crewai = Imported) ∧
  true = streamlit_in_sys_modules env_without_crewai
         || streamlit_in_argv env_without_crewai.
Proof.
  apply (probe_state_invariant env_without_crewai
           {| IS_STREAMLIT := true; CREWAI_AVAILABLE := false;
              IMPORT_ERROR := Some "No module named 'crewai'" |}).
  reflexivity.
Defined.

(** X3: the diagnostic the probe records is the text of the first import
    that failed; the imports after it are not attempted and cannot change
    it. *)
Theorem probe_records_first_failure (env : Environment) (st : ModuleState) :
  probe env = Returns st →
  (∀ e, import_crewai env = ImportRaises e →
        get_import_error st = Some (err_text e)) ∧
  (∀ e, import_crewai env = Imported →
        import_crewai_project env = ImportRaises e →
        get_import_error st = Some (err_text e)) ∧
  (∀ e, import_crewai env = Imported →
        import_crewai_project env = Imported →
        import_crewai_tools env = ImportRaises e →
        get_import_error st = Some (err_text e)).
Proof.
  intros Hprobe. pose proof (probe_returns_stdout env st Hprobe) as Hout.
  revert Hprobe.
  unfold probe, probe_handler, console_print, acquire, then_import.
  rewrite Hout.
  destruct (import_crewai env), (import_crewai_project env),
    (import_crewai_tools env);
    (destruct (_ || _);
     [try destruct (import_streamlit_guarded env)|]);
    simpl; try done; intros [= <-]; unfold str_exc; simpl;
    repeat split; intros; congruence.
Qed.

Lemma probe_records_first_failure_witness :
  ∃ st, probe env_crewai_unusable = Returns st ∧
        get_import_error st =
          Some "Your system has an unsupported version of sqlite3.".
Proof.
  eexists. split; [reflexivity|].
  exact (proj1 (probe_records_first_failure env_crewai_unusable _ eq_refl)
           _ eq_refl).
Defined.

(** ** More on the pipeline *)

Lemma context_precedes_witness :
  ∃ j, j < 3 ∧
       crew_tasks LeadGenerator.crew !! j
         = Some LeadGenerator.contact_research_task.
Proof.
  apply (context_precedes 3 LeadGenerator.sales_management_task
           LeadGenerator.contact_research_task).
  - reflexivity.
  - do 2 apply list_elem_of_further. apply list_elem_of_here.
Defined.

(** X5: contexts are closed: a task that takes a task as context also
    takes everything that task takes. *)
Theorem contexts_transitively_closed (t d d' : Task) :
  t ∈ crew_tasks LeadGenerator.crew →
  d ∈ context_of t →
  d' ∈ context_of d →
  d' ∈ context_of t.
Proof.
  intros Ht Hd Hd'. cbn in Ht.
  repeat (apply elem_of_cons in Ht as [->|Ht]); [| | | |by apply elem_of_nil in Ht];
    cbn in Hd;
    repeat (apply elem_of_cons in Hd as [->|Hd]);
    try (by apply elem_of_nil in Hd);
    cbn in Hd';
    repeat (apply elem_of_cons in Hd' as [->|Hd']);
    try (by apply elem_of_nil in Hd');
    cbn; repeat first [apply list_elem_of_here | apply list_elem_of_further].
Qed.

Lemma contexts_transitively_closed_witness :
  LeadGenerator.lead_generation_task
    ∈ context_of LeadGenerator.sales_management_task.
Proof.
  apply (contexts_transitively_closed LeadGenerator.sales_management_task
           LeadGenerator.lead_qualification_task
           LeadGenerator.lead_generation_task).
  - do 3 apply list_elem_of_further. apply list_elem_of_here.
  - apply list_elem_of_further. apply list_elem_of_here.
  - apply list_elem_of_here.
Defined.

(** ** The limited constructor *)

(** X6: constructing the limited generator raises in exactly one
    situation, under Streamlit when loading the UI module raises something
    that is not an [ImportError]; and it shows its notices exactly when it
    runs under Streamlit and the UI module loads. An [ImportError] is
    swallowed without a notice. *)
Theorem limited_constructor_raises_exactly_when (st : ModuleState)
    (ui_import : import_outcome) (x : exception) :
  ((FallbackLeadGenerator.construct st ui_import).2 = Raises x ↔
     IS_STREAMLIT st = true ∧
     ∃ e, ui_import = ImportRaises e ∧
          isinstance_ImportError e = false ∧
          x = External e) ∧
  ((FallbackLeadGenerator.construct st ui_import).1 ≠ [] ↔
     IS_STREAMLIT st = true ∧ ui_import = Imported).
Proof.
  unfold FallbackLeadGenerator.construct,
    FallbackLeadGenerator._show_error_if_streamlit.
  destruct (IS_STREAMLIT st); simpl.
  - destruct ui_import as [|e]; simpl.
    + split; split; try done.
      intros (_ & e & [=] & _).
    + destruct (isinstance_ImportError e) eqn:He; simpl.
      * split; split; try done.
        -- intros (_ & e' & [= <-] & He' & _). congruence.
        -- intros [_ [=]].
      * split; split; try done.
        -- intros [= <-]. split; [done|]. by exists e.
        -- by intros (_ & e' & [= <-] & _ & ->).
        -- intros [_ [=]].
  - split; split; try done; by intros [[=] _].
Qed.

(** X7: under Streamlit, after a probe that found the engine missing, the
    limited constructor returns an instance in fallback mode and shows
    four notices, the third being the diagnostic the probe recorded, that
    is the text of the import error. *)
Theorem limited_constructor_shows_probe_diagnostic (env : Environment)
    (st : ModuleState) (e : EnvError) :
  probe env = Returns st →
  acquire env = ImportRaises e →
  IS_STREAMLIT st = true →
  FallbackLeadGenerator.construct st Imported =
  ([St.error "⚠️ CrewAI não está disponível neste ambiente";
    St.info "A aplicação está rodando em modo limitado";
    St.code (PyStr ("Erro técnico: " ++ err_text e));
    St.warning "Por favor, verifique as dependências do projeto"],
   Returns {| fallback_mode := true |}).
Proof.
  intros Hprobe Hacq Hst.
  pose proof (probe_records_outcome env st Hprobe) as Hrec.
  rewrite Hacq in Hrec. destruct Hrec as [_ Herr].
  unfold get_import_error in Herr.
  unfold FallbackLeadGenerator.construct,
    FallbackLeadGenerator._show_error_if_streamlit.
  by rewrite Hst, Herr.
Qed.

Lemma limited_constructor_shows_probe_diagnostic_witness :
  FallbackLeadGenerator.construct
    {| IS_STREAMLIT := true; CREWAI_AVAILABLE := false;
       IMPORT_ERROR := Some "No module named 'crewai'" |} Imported =
  ([St.error "⚠️ CrewAI não está disponível neste ambiente";
    St.info "A aplicação está rodando em modo limitado";
    St.code (PyStr ("Erro técnico: " ++ "No module named 'crewai'"));
    St.warning "Por favor, verifique as dependências do projeto"],
   Returns {| fallback_mode := true |}).
Proof.
  apply (limited_constructor_shows_probe_diagnostic env_without_crewai
           {| IS_STREAMLIT := true; CREWAI_AVAILABLE := false;
              IMPORT_ERROR := Some "No module named 'crewai'" |}
           {| err_class := ModuleNotFoundError;
              err_text := "No module named 'crewai'" |});
    reflexivity.
Defined.

(** ** The page header *)

(** X8: after the probe, the notice at the top of the page is absent
    exactly when the three imports succeeded; otherwise it carries the
    text of the import error, once in the warning and once as a code
    block. *)
Theorem status_banner_shows_probe_diagnostic (env : Environment)
    (st : ModuleState) :
  probe env = Returns st →
  (Dashboard.status_banner st = [] ↔ acquire env = Imported) ∧
  (∀ e, acquire env = ImportRaises e →
        St.warning ("CrewAI indisponível: " ++ err_text e) ∈ Dashboard.status_banner st ∧
        St.code (PyStr (err_text e)) ∈ Dashboard.status_banner st).
Proof.
  intros Hprobe.
  pose proof (probe_records_outcome env st Hprobe) as Hrec.
  unfold Dashboard.status_banner.
  destruct (acquire env) as [|e0].
  - destruct Hrec as [-> _]. split; [done|]. intros e [=].
  - destruct Hrec as [-> ->]. simpl. split; [done|].
    intros e [= <-]. unfold str_exc. split.
    + apply list_elem_of_further, list_elem_of_here.
    + do 4 apply list_elem_of_further. apply list_elem_of_here.
Qed.

Lemma status_banner_shows_probe_diagnostic_witness :
  St.warning ("CrewAI indisponível: " ++ "No module named 'crewai'")
    ∈ Dashboard.status_banner
        {| IS_STREAMLIT := true; CREWAI_AVAILABLE := false;
           IMPORT_ERROR := Some "No module named 'crewai'" |}.
Proof.
  exact (proj1 (proj2 (status_banner_shows_probe_diagnostic env_without_crewai
                         _ eq_refl) _ eq_refl)).
Defined.

(** X9: the sidebar reports the API key as configured exactly when the
    environment variable holds a non-empty text; an empty variable is
    reported as not found, like a missing one. *)
Theorem sidebar_api_key_configured (st : ModuleState) (api_key : option string) :
  St.success "🔑 API Key configurada" ∈ Dashboard.sidebar st api_key ↔
  ∃ c s, api_key = Some (String c s).
Proof.
  unfold Dashboard.sidebar. rewrite !elem_of_cons, elem_of_nil.
  destruct api_key as [[|c s]|]; destruct (is_crewai_available st); simpl;
    split; try (intros (? & ? & [=])); try (intros [[=]|[[=]|[[=]|[]]]]);
    eauto 6.
Qed.

(** ** What the dashboard shows for a result *)

Lemma score_or_0_default (o : option Z) :
  Dashboard.score_or_0 o = default 0%Z o.
Proof.
  destruct o as [z|]; simpl; [|done].
  destruct (Z.eqb_spec z 0); congruence.
Qed.

(** A contact contributes an expander, a line of text and at most one
    link. *)
Lemma show_contact_widgets (contact : gmap string string) (w : St.widget) :
  w ∈ Dashboard.show_contact contact →
  match w with
  | St.expander _ | St.write _ => True
  | St.link_button label url =>
      label = "🔗 LinkedIn" ∧ contact !! "linkedin" = Some url ∧ url ≠ ""
  | _ => False
  end.
Proof.
  unfold Dashboard.show_contact. intros H.
  apply elem_of_app in H as [H|H].
  - repeat (apply elem_of_cons in H as [->|H]); [done|done|].
    by apply elem_of_nil in H.
  - destruct (contact !! "linkedin") as [[|c url]|];
      try (by apply elem_of_nil in H).
    apply list_elem_of_singleton in H as ->. done.
Qed.

Lemma show_contacts_widgets (contacts : list (gmap string string))
    (w : St.widget) :
  w ∈ concat (Dashboard.show_contact <$> contacts) →
  match w with
  | St.expander _ | St.write _ | St.link_button _ _ => True
  | _ => False
  end.
Proof.
  induction contacts as [|contact contacts IH]; intros H.
  - by apply elem_of_nil in H.
  - change (w ∈ (Dashboard.show_contact contact
                   ++ concat (Dashboard.show_contact <$> contacts))%list) in H.
    apply elem_of_app in H as [H|H]; [|by apply IH].
    apply show_contact_widgets in H. by destruct w.
Qed.

Lemma score_remark_cases (s : Z) :
  (Dashboard.score_remark s = St.success "🎯 Lead excelente!" ∧ (8 ≤ s)%Z) ∨
  (Dashboard.score_remark s = St.info "👍 Lead promissor" ∧ (6 ≤ s < 8)%Z) ∨
  (Dashboard.score_remark s = St.warning "⚠️ Lead para análise" ∧ (s < 6)%Z).
Proof.
  unfold Dashboard.score_remark.
  destruct (Z.leb_spec 8 s); [by left|].
  destruct (Z.leb_spec 6 s); [right; left|right; right]; split; (done || lia).
Qed.

(** The widgets of the page of a result: four metrics, one remark under
    the score, and headings, text, links and expanders. *)
Lemma show_result_widgets (result : LeadOutput) (w : St.widget) :
  w ∈ Dashboard.show_result result →
  match w with
  | St.subheader _ | St.columns _ | St.write _ | St.expander _
  | St.link_button _ _ => True
  | St.metric label v =>
      (label = "🏢 Empresa" ∧
       v = PyStr (Dashboard.or_NA (company_name result))) ∨
      (label = "💰 Receita" ∧
       v = PyStr (Dashboard.or_NA (annual_revenue result))) ∨
      (label = "👥 Funcionários" ∧
       v = Dashboard.number_or_NA (num_employees result)) ∨
      (label = "⭐ Score" ∧
       v = PyStr (str_int (Dashboard.score_or_0 (score result)) ++ "/10"))
  | St.success _ | St.info _ | St.warning _ =>
      w = Dashboard.score_remark (Dashboard.score_or_0 (score result))
  | _ => False
  end.
Proof.
  unfold Dashboard.show_result. intros H.
  apply elem_of_app in H as [H|H].
  { repeat (apply elem_of_cons in H as [->|H]); auto.
    by apply elem_of_nil in H. }
  apply elem_of_app in H as [H|H].
  { destruct (website_url result) as [[|c url]|];
      try (by apply elem_of_nil in H).
    by apply list_elem_of_singleton in H as ->. }
  apply elem_of_app in H as [H|H].
  { repeat (apply elem_of_cons in H as [->|H]); auto 6.
    - by destruct (score_remark_cases
                     (Dashboard.score_or_0 (score result)))
        as [[Hr _]|[[Hr _]|[Hr _]]]; rewrite Hr.
    - by apply elem_of_nil in H. }
  apply elem_of_app in H as [H|H].
  { destruct (review result) as [[|c text]|];
      try (by apply elem_of_nil in H).
    repeat (apply elem_of_cons in H as [->|H]); auto.
    by apply elem_of_nil in H. }
  apply elem_of_app in H as [H|H].
  { destruct (location result) as [loc|]; [|by apply elem_of_nil in H].
    destruct (decide (loc = ∅)); [by apply elem_of_nil in H|].
    repeat (apply elem_of_cons in H as [->|H]); auto.
    by apply elem_of_nil in H. }
  destruct (key_decision_makers result) as [[|contact contacts]|];
    try (by apply elem_of_nil in H).
  apply elem_of_cons in H as [->|H]; [done|].
  apply show_contacts_widgets in H. by destruct w.
Qed.

Lemma score_remark_shown (result : LeadOutput) :
  Dashboard.score_remark (Dashboard.score_or_0 (score result))
    ∈ Dashboard.show_result result.
Proof.
  unfold Dashboard.show_result.
  apply elem_of_app; right. apply elem_of_app; right. apply elem_of_app; left.
  do 3 apply list_elem_of_further. apply list_elem_of_here.
Qed.

(** X10: the remark under the score follows the thresholds 8 and 6, an
    absent score counting as 0: "excelente" from 8 up, "promissor" for 6
    and 7, "para análise" below 6, and exactly one of them is shown. The
    range 0 to 10 is not enforced: 11 is excellent, a negative score is
    for analysis. *)
Theorem score_remark_thresholds (result : LeadOutput) :
  (St.success "🎯 Lead excelente!" ∈ Dashboard.show_result result ↔
     (8 ≤ default 0 (score result))%Z) ∧
  (St.info "👍 Lead promissor" ∈ Dashboard.show_result result ↔
     (6 ≤ default 0 (score result) < 8)%Z) ∧
  (St.warning "⚠️ Lead para análise" ∈ Dashboard.show_result result ↔
     (default 0 (score result) < 6)%Z).
Proof.
  rewrite <- score_or_0_default.
  pose proof (score_remark_shown result) as Hshown.
  destruct (score_remark_cases (Dashboard.score_or_0 (score result)))
    as [[Hr Hs]|[[Hr Hs]|[Hr Hs]]];
    rewrite Hr in Hshown;
    (split; [|split]); (split; intros H; try done; try lia);
    apply show_result_widgets in H; simpl in H;
    rewrite Hr in H; discriminate H.
Qed.

Lemma employees_metric_shown (result : LeadOutput) :
  St.metric "👥 Funcionários" (Dashboard.number_or_NA (num_employees result))
    ∈ Dashboard.show_result result.
Proof.
  unfold Dashboard.show_result.
  apply elem_of_app; right. apply elem_of_app; right. apply elem_of_app; left.
  apply list_elem_of_further, list_elem_of_here.
Qed.

(** X11: the number of employees is shown as "N/A" exactly when it is
    absent or zero: a company with no employee is displayed like one whose
    headcount is unknown. *)
Theorem zero_employees_shown_as_NA (result : LeadOutput) :
  St.metric "👥 Funcionários" (PyStr "N/A") ∈ Dashboard.show_result result ↔
  num_employees result = None ∨ num_employees result = Some 0%Z.
Proof.
  split.
  - intros H. apply show_result_widgets in H.
    destruct H as [[[=] _]|[[[=] _]|[[_ Hv]|[[=] _]]]].
    unfold Dashboard.number_or_NA in Hv.
    destruct (num_employees result) as [z|]; [|by left].
    destruct (Z.eqb_spec z 0) as [Hz|Hz]; [right; by rewrite Hz|discriminate Hv].
  - intros H. pose proof (employees_metric_shown result) as Hshown.
    by destruct H as [H|H]; rewrite H in Hshown.
Qed.

(** X12: a key contact gets a LinkedIn button exactly when its entry has a
    non-empty [linkedin] text, and the button points to that text. *)
Theorem linkedin_button_shown_iff (contact : gmap string string)
    (url : string) :
  St.link_button "🔗 LinkedIn" url ∈ Dashboard.show_contact contact ↔
  contact !! "linkedin" = Some url ∧ url ≠ "".
Proof.
  split.
  - intros H. apply show_contact_widgets in H. tauto.
  - intros [Hc Hne]. unfold Dashboard.show_contact. rewrite Hc.
    destruct url as [|ch url]; [done|].
    do 2 apply list_elem_of_further. apply list_elem_of_here.
Qed.

(** ** What the dashboard shows for a submission *)

Lemma make_inputs_topic (topic : string) (max_leads : Z)
    (additional_info : string) :
  Dashboard.make_inputs topic max_leads additional_info !! "topic"
    = Some (PyStr topic).
Proof. unfold Dashboard.make_inputs. apply lookup_insert_eq. Qed.

(** What is shown for a returned value holds no error, success, info or
    warning notice but the remark under the score. *)
Lemma show_widgets (result : run_result) (w : St.widget) :
  w ∈ Dashboard.show result →
  match w with
  | St.error _ | St.error_f _ _ | St.code _ | St.markdown _ | St.header _
  | St.spinner _ => False
  | St.success _ | St.info _ | St.warning _ =>
      ∃ s, w = Dashboard.score_remark s
  | _ => True
  end.
Proof.
  destruct result as [out|r]; simpl; intros H.
  - repeat (apply elem_of_cons in H as [->|H]); [done|done|].
    by apply elem_of_nil in H.
  - apply show_result_widgets in H. destruct w; try done; eauto.
Qed.

(** The page for a non-empty topic, part by part. *)
Lemma on_submit_parts kickoff crewbase_init (pyd : pydantic_major)
    (st : ModuleState) (ch : Ascii.ascii) (topic : string) (max_leads : Z)
    (additional_info : string) :
  let g := Dashboard.generate kickoff crewbase_init pyd st
             (Dashboard.make_inputs (String ch topic) max_leads
                additional_info) in
  Dashboard.on_submit kickoff crewbase_init pyd st (String ch topic)
    max_leads additional_info =
  ((if negb (is_crewai_available st)
    then [St.warning "⚠️ Executando em modo limitado"] else [])
   ++ [St.spinner "🔍 Gerando leads... Isso pode levar alguns minutos"]
   ++ g.1
   ++ match g.2 with
      | Returns result => St.success "✅ Leads gerados com sucesso!" :: Dashboard.show result
      | Raises e =>
          St.error_f "❌ Erro ao gerar leads: " e
          :: (if negb (is_crewai_available st)
              then [St.info "💡 Este erro pode estar relacionado às limitações do modo atual"] else [])
      end)%list.
Proof. simpl. by destruct (Dashboard.generate _ _ _ _ _). Qed.

(** The only calls made while the generator is built are the notices of
    the limited constructor. *)
Lemma generate_calls kickoff crewbase_init (pyd : pydantic_major)
    (st : ModuleState) (inputs : gmap string value) :
  (Dashboard.generate kickoff crewbase_init pyd st inputs).1 =
  if CREWAI_AVAILABLE st then []
  else (FallbackLeadGenerator.construct st Imported).1.
Proof.
  unfold Dashboard.generate. destruct (CREWAI_AVAILABLE st); [done|].
  by destruct (FallbackLeadGenerator.construct st Imported).
Qed.

Lemma generate_calls_widgets kickoff crewbase_init (pyd : pydantic_major)
    (st : ModuleState) (inputs : gmap string value) (w : St.widget) :
  w ∈ (Dashboard.generate kickoff crewbase_init pyd st inputs).1 →
  match w with
  | St.error body => body = "⚠️ CrewAI não está disponível neste ambiente"
  | St.info body => body = "A aplicação está rodando em modo limitado"
  | St.warning body => body = "Por favor, verifique as dependências do projeto"
  | St.code _ => True
  | _ => False
  end.
Proof.
  rewrite generate_calls.
  unfold FallbackLeadGenerator.construct,
    FallbackLeadGenerator._show_error_if_streamlit.
  destruct (CREWAI_AVAILABLE st), (IS_STREAMLIT st); simpl; intros H;
    try (by apply elem_of_nil in H).
  repeat (apply elem_of_cons in H as [->|H]); try done.
  by apply elem_of_nil in H.
Qed.

(** X13: a submission with an empty topic is answered by one error notice
    and nothing else, whatever the mode and the engine; that notice
    appears for no other topic. *)
Theorem empty_topic_rejected kickoff crewbase_init (pyd : pydantic_major)
    (st : ModuleState) (topic : string) (max_leads : Z)
    (additional_info : string) :
  (Dashboard.on_submit kickoff crewbase_init pyd st "" max_leads
     additional_info = [St.error "❌ Por favor, insira um tópico para busca"]) ∧
  (St.error "❌ Por favor, insira um tópico para busca"
     ∈ Dashboard.on_submit kickoff crewbase_init pyd st topic max_leads
         additional_info ↔ topic = "").
Proof.
  split; [done|]. split.
  - destruct topic as [|ch topic]; [done|]. intros H. exfalso.
    rewrite on_submit_parts in H. cbv zeta in H.
    apply elem_of_app in H as [H|H].
    { destruct (negb _); [|by apply elem_of_nil in H].
      by apply list_elem_of_singleton in H. }
    apply elem_of_cons in H as [H|H]; [done|].
    apply elem_of_app in H as [H|H].
    { by apply generate_calls_widgets in H. }
    destruct (Dashboard.generate _ _ _ _ _).2 as [result|e].
    + apply elem_of_cons in H as [H|H]; [done|].
      by apply show_widgets in H.
    + apply elem_of_cons in H as [H|H]; [done|].
      destruct (negb _); [|by apply elem_of_nil in H].
      by apply list_elem_of_singleton in H.
  - intros ->. apply list_elem_of_here.
Qed.

(** X14: the notice of success is shown exactly when the topic is not
    empty and building and running the generator returned a result; the
    notice of failure exactly when the topic is not empty and one of the
    two raised. The page never has both. *)
Theorem success_notice_iff_result kickoff crewbase_init
    (pyd : pydantic_major) (st : ModuleState) (topic : string)
    (max_leads : Z) (additional_info : string) :
  let page := Dashboard.on_submit kickoff crewbase_init pyd st topic
                max_leads additional_info in
  let g := Dashboard.generate kickoff crewbase_init pyd st
             (Dashboard.make_inputs topic max_leads additional_info) in
  (St.success "✅ Leads gerados com sucesso!" ∈ page ↔ topic ≠ "" ∧ returned g.2 = true) ∧
  ((∃ e, St.error_f "❌ Erro ao gerar leads: " e ∈ page) ↔
     topic ≠ "" ∧ returned g.2 = false).
Proof.
  intros page g. subst page g.
  destruct topic as [|ch topic].
  { split; split; try (by intros [? _]).
    - intros H. by apply list_elem_of_singleton in H.
    - intros [e H]. by apply list_elem_of_singleton in H. }
  rewrite on_submit_parts. cbv zeta.
  split; split.
  - intros H. split; [done|].
    apply elem_of_app in H as [H|H].
    { destruct (negb _); [|by apply elem_of_nil in H].
      by apply list_elem_of_singleton in H. }
    apply elem_of_cons in H as [H|H]; [done|].
    apply elem_of_app in H as [H|H].
    { by apply generate_calls_widgets in H. }
    destruct (Dashboard.generate _ _ _ _ _).2 as [result|e]; [done|].
    apply elem_of_cons in H as [H|H]; [done|].
    destruct (negb _); [|by apply elem_of_nil in H].
    by apply list_elem_of_singleton in H.
  - intros [_ H].
    destruct (Dashboard.generate _ _ _ _ _).2 as [result|e]; [|done].
    apply elem_of_app; right. apply list_elem_of_further.
    apply elem_of_app; right. apply list_elem_of_here.
  - intros [e0 H]. split; [done|].
    apply elem_of_app in H as [H|H].
    { destruct (negb _); [|by apply elem_of_nil in H].
      by apply list_elem_of_singleton in H. }
    apply elem_of_cons in H as [H|H]; [done|].
    apply elem_of_app in H as [H|H].
    { by apply generate_calls_widgets in H. }
    destruct (Dashboard.generate _ _ _ _ _).2 as [result|e]; [|done].
    apply elem_of_cons in H as [H|H]; [done|].
    by apply show_widgets in H.
  - intros [_ H].
    destruct (Dashboard.generate _ _ _ _ _).2 as [result|e]; [done|].
    exists e. apply elem_of_app; right. apply list_elem_of_further.
    apply elem_of_app; right. apply list_elem_of_here.
Qed.

(** X15: in limited mode on pydantic 2.x every submission with a topic
    ends on the failure notice carrying the [ValidationError] of the
    limited [run], followed by the hint about the limited mode; no result
    is shown. *)
Theorem limited_page_on_pydantic_v2 kickoff crewbase_init (st : ModuleState)
    (ch : Ascii.ascii) (topic : string) (max_leads : Z)
    (additional_info : string) :
  CREWAI_AVAILABLE st = false →
  Dashboard.on_submit kickoff crewbase_init PydanticV2 st (String ch topic)
    max_leads additional_info =
  ([St.warning "⚠️ Executando em modo limitado"; St.spinner "🔍 Gerando leads... Isso pode levar alguns minutos"]
   ++ (FallbackLeadGenerator.construct st Imported).1
   ++ [St.error_f "❌ Erro ao gerar leads: "
         (ValidationError "LeadOutput"
         ["annual_revenue"; "website_url"; "num_employees";
          "key_decision_makers"]);
       St.info "💡 Este erro pode estar relacionado às limitações do modo atual"])%list.
Proof.
  intros Hav. rewrite on_submit_parts. cbv zeta.
  rewrite generate_calls. unfold Dashboard.generate, is_crewai_available.
  rewrite Hav.
  unfold FallbackLeadGenerator.construct,
    FallbackLeadGenerator._show_error_if_streamlit.
  by destruct (IS_STREAMLIT st).
Qed.

Lemma limited_page_on_pydantic_v2_witness :
  Dashboard.on_submit failing_engine (Returns tt) PydanticV2 limited_state
    "fintech startups in Berlin" 3 "" =
  [St.warning "⚠️ Executando em modo limitado"; St.spinner "🔍 Gerando leads... Isso pode levar alguns minutos";
   St.error_f "❌ Erro ao gerar leads: "
     (ValidationError "LeadOutput"
         ["annual_revenue"; "website_url"; "num_employees";
          "key_decision_makers"]);
   St.info "💡 Este erro pode estar relacionado às limitações do modo atual"].
Proof.
  apply (limited_page_on_pydantic_v2 failing_engine (Returns tt) limited_state
           _ _ 3 "").
  reflexivity.
Defined.



(** X17: with the engine available, an error raised while the generator
    is built is shown as it is, and the pipeline is not run: the page does
    not depend on what the pipeline would do. *)
Theorem constructor_failure_shown kickoff (pyd : pydantic_major)
    (st : ModuleState) (ch : Ascii.ascii) (topic : string) (max_leads : Z)
    (additional_info : string) (e : exception) :
  CREWAI_AVAILABLE st = true →
  Dashboard.on_submit kickoff (Raises e) pyd st (String ch topic)
    max_leads additional_info =
  [St.spinner "🔍 Gerando leads... Isso pode levar alguns minutos"; St.error_f "❌ Erro ao gerar leads: " e].
Proof.
  intros Hav. rewrite on_submit_parts. cbv zeta.
  rewrite generate_calls. unfold Dashboard.generate, is_crewai_available.
  by rewrite Hav.
Qed.

Lemma constructor_failure_shown_witness :
  Dashboard.on_submit succeeding_engine (Raises (External ConnectionError))
    PydanticV2 live_state "fintech startups in Berlin" 3 "" =
  [St.spinner "🔍 Gerando leads... Isso pode levar alguns minutos";
   St.error_f "❌ Erro ao gerar leads: " (External ConnectionError)].
Proof.
  apply (constructor_failure_shown succeeding_engine PydanticV2 live_state
           _ _ 3 "" (External ConnectionError)).
  reflexivity.
Defined.

(** X18: in limited mode on pydantic 1.x every submission with a topic
    shows the success notice and the limited result: company
    "Modo Limitado", revenue and employees "N/A", score "0/10" with the
    remark "para análise", a description that ends with the topic as
    typed, and the location N/A, N/A. *)
Theorem limited_page_on_pydantic_v1 kickoff crewbase_init (st : ModuleState)
    (ch : Ascii.ascii) (topic : string) (max_leads : Z)
    (additional_info : string) :
  CREWAI_AVAILABLE st = false →
  Dashboard.on_submit kickoff crewbase_init PydanticV1 st (String ch topic)
    max_leads additional_info =
  ([St.warning "⚠️ Executando em modo limitado"; St.spinner "🔍 Gerando leads... Isso pode levar alguns minutos"]
   ++ (FallbackLeadGenerator.construct st Imported).1
   ++ [St.success "✅ Leads gerados com sucesso!";
       St.subheader "📋 Resultado";
       St.columns 3;
       St.metric "🏢 Empresa" (PyStr "Modo Limitado");
       St.metric "💰 Receita" (PyStr "N/A");
       St.metric "👥 Funcionários" (PyStr "N/A");
       St.metric "⭐ Score" (PyStr "0/10");
       St.warning "⚠️ Lead para análise";
       St.subheader "📝 Descrição";
       St.write ("CrewAI indisponível. Tópico solicitado: "
                 ++ String ch topic);
       St.subheader "📍 Localização";
       St.write "**Cidade:** N/A";
       St.write "**País:** N/A"])%list ∧
  contains (String ch topic)
    ("CrewAI indisponível. Tópico solicitado: " ++ String ch topic) = true.
Proof.
  intros Hav. split; [|apply contains_suffix].
  rewrite on_submit_parts. cbv zeta.
  rewrite generate_calls. unfold Dashboard.generate, is_crewai_available.
  rewrite Hav, limited_run_v1. unfold get. rewrite make_inputs_topic.
  unfold FallbackLeadGenerator.construct,
    FallbackLeadGenerator._show_error_if_streamlit.
  by destruct (IS_STREAMLIT st).
Qed.

Lemma limited_page_on_pydantic_v1_witness :
  St.write "CrewAI indisponível. Tópico solicitado: fintech startups in Berlin"
    ∈ Dashboard.on_submit failing_engine (Returns tt) PydanticV1
        limited_state "fintech startups in Berlin" 3 "".
Proof.
  rewrite (proj1 (limited_page_on_pydantic_v1 failing_engine (Returns tt)
                    limited_state _ _ 3 ""
                    eq_refl)).
  do 11 apply list_elem_of_further. apply list_elem_of_here.
Defined.

(** X19: in limited mode the page depends on the topic only: the number
    of leads, the additional information and the engine change nothing. *)
Theorem limited_page_depends_on_topic_only kickoff1 kickoff2 init1 init2
    (pyd : pydantic_major) (st : ModuleState) (topic : string)
    (max_leads1 max_leads2 : Z) (info1 info2 : string) :
  CREWAI_AVAILABLE st = false →
  Dashboard.on_submit kickoff1 init1 pyd st topic max_leads1 info1 =
  Dashboard.on_submit kickoff2 init2 pyd st topic max_leads2 info2.
Proof.
  intros Hav. destruct topic as [|ch topic]; [done|].
  rewrite !on_submit_parts. cbv zeta. rewrite !generate_calls.
  unfold Dashboard.generate. rewrite Hav.
  destruct (FallbackLeadGenerator.construct st Imported) as [calls [i|e]];
    [|done].
  simpl. unfold FallbackLeadGenerator.run, get.
  by rewrite !make_inputs_topic.
Qed.

Lemma limited_page_depends_on_topic_only_witness :
  Dashboard.on_submit failing_engine (Returns tt) PydanticV1 limited_state
    "fintech startups in Berlin" 3 "" =
  Dashboard.on_submit succeeding_engine (Raises (External ConnectionError))
    PydanticV1 limited_state "fintech startups in Berlin" 10
    "more than 100 employees".
Proof.
  apply (limited_page_depends_on_topic_only failing_engine succeeding_engine
           (Returns tt) (Raises (External ConnectionError)) PydanticV1
           limited_state "fintech startups in Berlin" 3 10 ""
           "more than 100 employees").
  reflexivity.
Defined.

(** ** What the facade drops *)



(** X21: with the engine available, when the generator is built and the
    pipeline completes, the page shows the success notice, the heading and
    the engine's output object handed to [st.write]: the value [run]
    returns has no [company_name], so the field-by-field display is not
    used, whatever structured output the object carries. *)
Theorem live_page_shows_engine_output kickoff (pyd : pydantic_major)
    (st : ModuleState) (ch : Ascii.ascii) (topic : string) (max_leads : Z)
    (additional_info : string) (out : CrewOutput.t) :
  CREWAI_AVAILABLE st = true →
  kickoff LeadGenerator.crew
    (Dashboard.make_inputs (String ch topic) max_leads additional_info)
    = Returns out →
  Dashboard.on_submit kickoff (Returns tt) pyd st (String ch topic)
    max_leads additional_info =
  [St.spinner "🔍 Gerando leads... Isso pode levar alguns minutos";
   St.success "✅ Leads gerados com sucesso!";
   St.subheader "📋 Resultado";
   St.write_object (FromEngine out)].
Proof.
  intros Hav Hk. rewrite on_submit_parts. cbv zeta.
  rewrite generate_calls. unfold Dashboard.generate, is_crewai_available.
  rewrite Hav. simpl. unfold LeadGenerator.run. by rewrite Hk.
Qed.

Lemma live_page_shows_engine_output_witness :
  Dashboard.on_submit succeeding_engine (Returns tt) PydanticV2 live_state
    "fintech startups in Berlin" 3 "" =
  [St.spinner "🔍 Gerando leads... Isso pode levar alguns minutos";
   St.success "✅ Leads gerados com sucesso!";
   St.subheader "📋 Resultado";
   St.write_object (FromEngine acme_output)].
Proof.
  apply (live_page_shows_engine_output succeeding_engine PydanticV2
           live_state _ _ 3 "" acme_output); reflexivity.
Defined.
